(** * The slow server of the load-balancer fixture

    [load_balancer/slow-server/server.py] is twelve lines of Python: a
    request-handler class [SlowHandler] whose only method [do_GET] sleeps
    five seconds and then answers, and one statement that builds an
    [HTTPServer] on [("0.0.0.0", 80)] and calls [serve_forever].

    Everything else the program does is done by the two standard-library
    modules it instantiates, [socketserver] and [http.server].  They are
    embedded here next to the program, method by method, in the order in
    which control reaches them:

      - [Py]            values and helpers of the Python runtime;
      - [Handler]       the state of one handler instance, the monad its
                        methods run in, [time.sleep] and [wfile.write];
      - [HttpServer]    [BaseHTTPRequestHandler]: [send_response],
                        [send_header], [end_headers], [send_error],
                        [handle_one_request], [handle];
      - [SlowServer]    the program itself: [do_GET], [SlowHandler];
      - [SocketServer]  [TCPServer]: the constructor, [serve_forever],
                        [_handle_request_noblock];
      - [Main]          the module-level statement, as a process.

    Then come the observations the statements are made of, some sample
    inputs, and the statements themselves, each under the number of the
    claim of the specification it settles.

    Time is a virtual clock in seconds: [time.sleep] is the only operation
    that advances it, every other operation takes no time.

    Boundaries of the model.  A request enters as the attributes
    [parse_request] leaves on the handler ([command], [path],
    [request_version], [headers]); the request line and header parsing
    itself is not embedded.  [protocol_version] is "HTTP/1.0", under which
    [parse_request] always leaves [close_connection] set.  Writes to
    [sys.stderr] ([log_request], [log_error], the traceback printed by
    [handle_error]) are left out: they never reach a connection.  A peer
    that connects and then neither sends nor closes is not represented. *)

From Stdlib Require Import ZArith List String Ascii Bool Lia DecimalString.
Import ListNotations.

Local Open Scope list_scope.
Local Open Scope string_scope.
Local Open Scope Z_scope.

(** ** Python values *)

Module Py.

(** [bytes] and [str] restricted to Latin-1 coincide: one [ascii] per
    code point below 256. *)
Definition bytes := string.

Definition CRLF : string := String "013" (String "010" EmptyString).

(** [str(n)] and ["%d" % n]. *)
Definition str_of_int (n : Z) : string :=
  NilZero.string_of_int (Z.to_int n).

(** [len(b)]. *)
Definition len (b : bytes) : Z := Z.of_nat (String.length b).

(** [b"".join(parts)]. *)
Definition join (parts : list bytes) : bytes :=
  fold_right String.append EmptyString parts.

(** [str.lower] on Latin-1: A-Z and the accented capitals move by 32. *)
Definition lower_char (c : ascii) : ascii :=
  let n := N_of_ascii c in
  if ((65 <=? n) && (n <=? 90))%N
     || ((192 <=? n) && (n <=? 222) && negb (n =? 215))%N
  then ascii_of_N (n + 32)
  else c.

Fixpoint lower (s : string) : string :=
  match s with
  | EmptyString => EmptyString
  | String c s' => String (lower_char c) (lower s')
  end.

(** What the runtime contributes to the bytes of a response and is not
    fixed by the program: the interpreter's version, the date formatter,
    [repr] on strings and the rendering of the HTML error page. *)
Record runtime := {
  (** [sys.version.split()[0]], as in "3.11.2" *)
  python_version : string;
  (** [email.utils.formatdate(t, usegmt=True)] *)
  formatdate : Z -> string;
  (** [repr(s)] for a [str] *)
  repr : string -> string;
  (** [(error_message_format % {code, message, explain}).encode("UTF-8")],
      with [message] and [explain] passed through [html.escape] *)
  error_page : Z -> string -> string -> bytes
}.

Inductive signal := SIGINT | SIGTERM.

(** Exceptions that can travel through this program.  [Killed] is not a
    Python exception: it stands for the default disposition of a signal,
    which ends the process and which no [except] clause sees. *)
Inductive exn :=
| OSError
| AttributeError
| KeyboardInterrupt
| Killed (sg : signal).

(** [isinstance(e, Exception)]: [KeyboardInterrupt] derives from
    [BaseException] only. *)
Definition is_Exception (e : exn) : bool :=
  match e with
  | OSError | AttributeError => true
  | KeyboardInterrupt | Killed _ => false
  end.

Inductive result (A : Type) :=
| Ok (a : A)
| Raise (e : exn).
Arguments Ok {A} a.
Arguments Raise {A} e.

End Py.
Export Py.

(** ** A handler instance and its effects *)

Module Handler.

(** What a handler does that the outside can observe, stamped with the
    clock at which it starts. *)
Inductive event :=
| Slept (secs : Z)              (* [time.sleep(secs)] ran to its end *)
| SleepCut (sg : signal)        (* a signal arrived during the sleep *)
| Sent (payload : bytes)        (* [sendall(payload)] returned *)
| SendFailed (payload : bytes). (* [sendall(payload)] raised [OSError] *)

Definition trace := list (Z * event).

Record request := {
  command : string;
  path : string;
  request_version : string;
  headers : list (string * string);
  (** the entity body the peer sent after the headers *)
  entity : bytes
}.

(** The peer's side of a connection: the requests it sends, in order, and
    whether the [k]-th [sendall] on the socket, attempted at clock [t],
    raises.  A peer that went away is a connection whose [sendall_raises]
    is true from some time on. *)
Record connection := {
  rfile : list request;
  sendall_raises : Z -> nat -> bool
}.

(** The instance attributes the methods below read and write, with the
    clock and the record of what happened so far. *)
Record state := {
  clock : Z;
  events : trace;
  headers_buffer : option (list bytes);   (* [self._headers_buffer] *)
  close_connection : bool;
  sendalls : nat
}.

Definition M (A : Type) : Type := state -> result A * state.

Definition ret {A} (a : A) : M A := fun s => (Ok a, s).

Definition bind {A B} (m : M A) (k : A -> M B) : M B :=
  fun s =>
    match m s with
    | (Ok a, s') => k a s'
    | (Raise e, s') => (Raise e, s')
    end.

Definition raise {A} (e : exn) : M A := fun s => (Raise e, s).

(** [try: body finally: final]. *)
Definition try_finally {A} (body : M A) (final : M unit) : M A :=
  fun s =>
    let (r, s') := body s in
    match final s' with
    | (Ok _, s'') => (r, s'')
    | (Raise e, s'') => (Raise e, s'')
    end.

Definition gets {A} (f : state -> A) : M A := fun s => (Ok (f s), s).

Definition modify (f : state -> state) : M unit := fun s => (Ok tt, f s).

Declare Scope handler_scope.
Delimit Scope handler_scope with handler.
Bind Scope handler_scope with M.

Notation "x <- m ;; k" := (bind m (fun x => k))
  (at level 61, m at next level, right associativity) : handler_scope.
Notation "m ;; k" := (bind m (fun _ => k))
  (at level 61, right associativity) : handler_scope.

Definition record (e : event) (s : state) : state :=
  {| clock := clock s;
     events := (events s ++ [(clock s, e)])%list;
     headers_buffer := headers_buffer s;
     close_connection := close_connection s;
     sendalls := sendalls s |}.

Definition advance (t : Z) (s : state) : state :=
  {| clock := t;
     events := events s;
     headers_buffer := headers_buffer s;
     close_connection := close_connection s;
     sendalls := sendalls s |}.

Definition set_headers_buffer (b : option (list bytes)) (s : state) : state :=
  {| clock := clock s;
     events := events s;
     headers_buffer := b;
     close_connection := close_connection s;
     sendalls := sendalls s |}.

Definition set_close_connection (b : bool) (s : state) : state :=
  {| clock := clock s;
     events := events s;
     headers_buffer := headers_buffer s;
     close_connection := b;
     sendalls := sendalls s |}.

Definition count_sendall (s : state) : state :=
  {| clock := clock s;
     events := events s;
     headers_buffer := headers_buffer s;
     close_connection := close_connection s;
     sendalls := S (sendalls s) |}.

(** A signal sent to the process at a given clock, if any is. *)
Definition interrupt := option (signal * Z).

(** [SIGINT] becomes [KeyboardInterrupt] in the main thread; [SIGTERM]
    keeps its default disposition. *)
Definition exn_of_signal (sg : signal) : exn :=
  match sg with
  | SIGINT => KeyboardInterrupt
  | SIGTERM => Killed SIGTERM
  end.

(** The signal that cuts a wait begun at [from] and due to end at
    [till], with the clock at which it does. *)
Definition cut (i : interrupt) (from till : Z) : option (signal * Z) :=
  match i with
  | Some (sg, t) => if t <? till then Some (sg, Z.max from t) else None
  | None => None
  end.

Section Effects.

Variable intr : interrupt.
Variable conn : connection.

(** [time.sleep(secs)]. *)
Definition time_sleep (secs : Z) : M unit :=
  fun s =>
    match cut intr (clock s) (clock s + secs) with
    | Some (sg, t) =>
        (Raise (exn_of_signal sg), advance t (record (SleepCut sg) s))
    | None =>
        (Ok tt, advance (clock s + secs) (record (Slept secs) s))
    end.

(** [self.wfile.write(b)]: [wfile] is the unbuffered [_SocketWriter],
    whose [write] is [sendall] on the socket. *)
Definition wfile_write (b : bytes) : M unit :=
  fun s =>
    if sendall_raises conn (clock s) (sendalls s)
    then (Raise OSError, count_sendall (record (SendFailed b) s))
    else (Ok tt, count_sendall (record (Sent b) s)).

(** [self.wfile.flush()]: nothing is buffered. *)
Definition wfile_flush : M unit := ret tt.

End Effects.

End Handler.
Export Handler.

(** ** [http.server]: [BaseHTTPRequestHandler] *)

Module HttpServer.

Local Open Scope handler_scope.

Definition protocol_version : string := "HTTP/1.0".

(** ["BaseHTTP/" + __version__]. *)
Definition server_version : string := "BaseHTTP/0.6".

Definition error_content_type : string := "text/html;charset=utf-8".

(** The two entries of [responses] this program looks up: the short and
    the long message of a status. *)
Definition responses (code : Z) : option (string * string) :=
  if code =? 200 then Some ("OK", "Request fulfilled, document follows")
  else if code =? 501
       then Some ("Not Implemented", "Server does not support this operation")
       else None.

(** A method of a handler class: it sees the runtime, the pending signal,
    the connection and the attributes of the request, as [self] gives them. *)
Definition method : Type :=
  runtime -> interrupt -> connection -> request -> M unit.

(** A handler class as [hasattr] and [getattr] see it: the methods found
    under a name. *)
Definition handler_class : Type := string -> option method.

Section Instance.

Variable rt : runtime.
Variable intr : interrupt.
Variable conn : connection.

(** ["Python/" + sys.version.split()[0]]. *)
Definition sys_version : string := "Python/" ++ python_version rt.

Definition version_string : string := server_version ++ " " ++ sys_version.

(** [date_time_string()]: the date of the current clock. *)
Definition date_time_string : M string :=
  gets (fun s => formatdate rt (clock s)).

(** [self._headers_buffer.append(line)], creating the attribute when it is
    missing. *)
Definition buffer_append (line : bytes) : M unit :=
  modify (fun s =>
    let buf := match headers_buffer s with Some b => b | None => [] end in
    set_headers_buffer (Some (buf ++ [line])%list) s).

Section Request.

Variable req : request.

Definition send_response_only (code : Z) (message : option string) : M unit :=
  if String.eqb (request_version req) "HTTP/0.9" then ret tt
  else
    let message :=
      match message with
      | Some m => m
      | None => match responses code with
                | Some (short, _) => short
                | None => ""
                end
      end in
    buffer_append
      (protocol_version ++ " " ++ str_of_int code ++ " " ++ message ++ CRLF).

Definition send_header (keyword value : string) : M unit :=
  (if String.eqb (request_version req) "HTTP/0.9" then ret tt
   else buffer_append (keyword ++ ": " ++ value ++ CRLF)) ;;
  if String.eqb (lower keyword) "connection" then
    if String.eqb (lower value) "close" then modify (set_close_connection true)
    else if String.eqb (lower value) "keep-alive"
         then modify (set_close_connection false)
    else ret tt
  else ret tt.

Definition flush_headers : M unit :=
  buf <- gets headers_buffer ;;
  match buf with
  | Some b => wfile_write conn (join b) ;; modify (set_headers_buffer (Some []))
  | None => ret tt
  end.

Definition end_headers : M unit :=
  if String.eqb (request_version req) "HTTP/0.9" then ret tt
  else
    buf <- gets headers_buffer ;;
    match buf with
    | Some b => modify (set_headers_buffer (Some (b ++ [CRLF])%list)) ;;
                flush_headers
    | None => raise AttributeError
    end.

(** [send_response]: after [log_request], which writes to [sys.stderr], the
    status line and the two headers every response gets. *)
Definition send_response (code : Z) (message : option string) : M unit :=
  send_response_only code message ;;
  send_header "Server" version_string ;;
  date <- date_time_string ;;
  send_header "Date" date.

Definition send_error (code : Z) (message explain : option string) : M unit :=
  let (shortmsg, longmsg) :=
    match responses code with
    | Some p => p
    | None => ("???", "???")
    end in
  let message := match message with Some m => m | None => shortmsg end in
  let explain := match explain with Some e => e | None => longmsg end in
  send_response code (Some message) ;;
  send_header "Connection" "close" ;;
  let body :=
    if (200 <=? code)
       && negb ((code =? 204) || (code =? 205) || (code =? 304))
    then Some (error_page rt code message explain)
    else None in
  match body with
  | Some b =>
      send_header "Content-Type" error_content_type ;;
      send_header "Content-Length" (str_of_int (len b))
  | None => ret tt
  end ;;
  end_headers ;;
  match body with
  | Some b =>
      if negb (String.eqb (command req) "HEAD") && negb (String.eqb b "")
      then wfile_write conn b
      else ret tt
  | None => ret tt
  end.

End Request.

Variable cls : handler_class.

(** [handle_one_request], from the point where [readline] and
    [parse_request] have produced either the end of the stream ([None]) or
    the attributes of a request.  [parse_request] sets [close_connection]
    and, [protocol_version] being below "HTTP/1.1", never clears it. *)
Definition handle_one_request (next : option request) : M unit :=
  match next with
  | None => modify (set_close_connection true)
  | Some req =>
      modify (set_close_connection true) ;;
      match cls ("do_" ++ command req) with
      | None =>
          send_error req 501
            (Some ("Unsupported method (" ++ repr rt (command req) ++ ")"))
            None
      | Some do_method => do_method rt intr conn req ;; wfile_flush
      end
  end.

(** The loop of [handle]: one request, then more while [close_connection]
    is clear; the end of the stream sets it. *)
Fixpoint handle_requests (incoming : list request) : M unit :=
  match incoming with
  | [] => handle_one_request None
  | req :: rest =>
      handle_one_request (Some req) ;;
      closing <- gets close_connection ;;
      if closing then ret tt else handle_requests rest
  end.

Definition handle : M unit :=
  modify (set_close_connection true) ;;
  handle_requests (rfile conn).

End Instance.

End HttpServer.
Export HttpServer.

(** ** [server.py] *)

Module SlowServer.

Local Open Scope handler_scope.

(** [SlowHandler.do_GET]. *)
Definition do_GET : method :=
  fun rt intr conn req =>
    time_sleep intr 5 ;;
    send_response rt req 200 None ;;
    send_header req "Content-type" "text/plain" ;;
    end_headers conn req ;;
    wfile_write conn "Response from SLOW SERVER (5s delay)".

(** [class SlowHandler(BaseHTTPRequestHandler)]: the base class has no
    [do_*] method, so [do_GET] is the only one an instance has. *)
Definition SlowHandler : handler_class :=
  fun name => if String.eqb name "do_GET" then Some do_GET else None.

(** The address given to [HTTPServer]. *)
Definition address : string * Z := ("0.0.0.0", 80).

End SlowServer.
Export SlowServer.

(** ** [socketserver]: [TCPServer] and its loop *)

Module SocketServer.

(** A connection attempt reaching the listening socket at [arrives_at].
    [get_request] is what [accept] gives when the loop gets to it: the
    connection, or [None] when [accept] raises [OSError]. *)
Record arrival := {
  arrives_at : Z;
  get_request : option connection
}.

(** What became of one accepted connection. *)
Record served := {
  issued : Z;               (* when the peer connected *)
  began : Z;                (* when its handler was created *)
  activity : trace;         (* what the handler did *)
  raised : option exn;      (* the exception that left the handler *)
  ended : Z;                (* when the handler was left *)
  shut_down : bool          (* [shutdown_request] ran *)
}.

Record server := {
  server_address : string * Z;
  shutdown_request : bool;  (* [self.__shutdown_request] *)
  now : Z;
  history : list served
}.

(** How a call to [serve_forever] ends: it does not ([Blocked] in [select]
    with nothing left to arrive), it returns, or an exception leaves it. *)
Inductive loop_end :=
| Blocked
| Returned
| Escaped (e : exn).

(** [socket.getsockname()] after [bind(addr)]: port 0 asks the system for
    a port of its choice. *)
Definition getsockname (addr : string * Z) (ephemeral : Z) : string * Z :=
  (fst addr, if snd addr =? 0 then ephemeral else snd addr).

(** [TCPServer.__init__] with [HTTPServer.server_bind]: [bind], then
    [self.server_address = self.socket.getsockname()], then [listen].
    When [bind] raises, the socket is closed and the exception goes on. *)
Definition TCPServer (bind_raises : bool) (ephemeral start : Z)
    (server_address : string * Z) : result server :=
  if bind_raises then Raise OSError
  else Ok {| server_address := getsockname server_address ephemeral;
             shutdown_request := false;
             now := start;
             history := [] |}.

Definition at_clock (t : Z) (srv : server) : server :=
  {| server_address := server_address srv;
     shutdown_request := shutdown_request srv;
     now := t;
     history := history srv |}.

Definition log (entry : served) (srv : server) : server :=
  {| server_address := server_address srv;
     shutdown_request := shutdown_request srv;
     now := ended entry;
     history := (history srv ++ [entry])%list |}.

Section Loop.

Variable rt : runtime.
Variable intr : interrupt.
Variable RequestHandlerClass : handler_class.

(** A handler instance as [setup] leaves it. *)
Definition fresh (t : Z) : state :=
  {| clock := t;
     events := [];
     headers_buffer := None;
     close_connection := false;
     sendalls := 0 |}.

(** [StreamRequestHandler.finish]: flush [wfile], ignoring socket errors,
    and close both files. *)
Definition finish (conn : connection) : M unit := wfile_flush.

(** [finish_request]: create the handler, whose constructor runs [setup],
    then [handle], and [finish] whatever [handle] did. *)
Definition finish_request (conn : connection) (t : Z) : result unit * state :=
  try_finally (handle rt intr conn RequestHandlerClass) (finish conn) (fresh t).

(** [_handle_request_noblock]: accept, [process_request], and the two
    [except] clauses around it.  An [Exception] is reported by
    [handle_error] and dropped; anything else is raised again after
    [shutdown_request]. *)
Definition _handle_request_noblock (a : arrival) (srv : server)
    : server * option exn :=
  match get_request a with
  | None => (srv, None)
  | Some conn =>
      let (r, s) := finish_request conn (now srv) in
      let entry (e : option exn) (closed : bool) :=
        {| issued := arrives_at a;
           began := now srv;
           activity := events s;
           raised := e;
           ended := clock s;
           shut_down := closed |} in
      match r with
      | Ok _ => (log (entry None true) srv, None)
      | Raise e =>
          if is_Exception e then (log (entry (Some e) true) srv, None)
          else match e with
               | Killed _ => (log (entry (Some e) false) srv, Some e)
               | _ => (log (entry (Some e) true) srv, Some e)
               end
      end
  end.

(** [serve_forever]: while [__shutdown_request] is clear, wait in [select]
    for the next connection and handle it.  A signal that comes during the
    wait ends it. *)
Fixpoint serve_forever (pending : list arrival) (srv : server)
    : server * loop_end :=
  if shutdown_request srv then (srv, Returned)
  else
    match pending with
    | [] =>
        match intr with
        | Some (sg, t) =>
            (at_clock (Z.max (now srv) t) srv, Escaped (exn_of_signal sg))
        | None => (srv, Blocked)
        end
    | a :: rest =>
        let ready := Z.max (now srv) (arrives_at a) in
        match cut intr (now srv) ready with
        | Some (sg, t) => (at_clock t srv, Escaped (exn_of_signal sg))
        | None =>
            match _handle_request_noblock a (at_clock ready srv) with
            | (srv', Some e) => (srv', Escaped e)
            | (srv', None) => serve_forever rest srv'
            end
        end
    end.

End Loop.

End SocketServer.
Export SocketServer.

(** ** The process *)

Module Main.

(** What the process meets when it is started. *)
Record os := {
  argv : list string;        (* [sys.argv[1:]] *)
  python : runtime;
  started : Z;               (* the clock at start *)
  bind_raises : bool;        (* [bind] fails: address in use, no permission *)
  ephemeral : Z;
  arrivals : list arrival;   (* in the order [accept] returns them *)
  signalled : interrupt
}.

Inductive status :=
| Serving                    (* still inside [serve_forever] *)
| ExitCode (n : Z)
| KilledBy (sg : signal).

(** How the interpreter ends: with 0 when the module runs to its end, with
    1 on an uncaught exception, and, for an uncaught [KeyboardInterrupt],
    by sending itself [SIGINT] (CPython 3.8 and later). *)
Definition exit_status (l : loop_end) : status :=
  match l with
  | Blocked => Serving
  | Returned => ExitCode 0
  | Escaped KeyboardInterrupt => KilledBy SIGINT
  | Escaped (Killed sg) => KilledBy sg
  | Escaped _ => ExitCode 1
  end.

(** [HTTPServer(("0.0.0.0", 80), SlowHandler).serve_forever()].  The first
    component is the server object, when the constructor returned one. *)
Definition main (e : os) : option server * status :=
  match TCPServer (bind_raises e) (ephemeral e) (started e) address with
  | Raise ex => (None, exit_status (Escaped ex))
  | Ok srv =>
      let (srv', l) :=
        serve_forever (python e) (signalled e) SlowHandler (arrivals e) srv in
      (Some srv', exit_status l)
  end.

End Main.
Export Main.

(** * Observations

    What the statements below speak of.  Nothing here is part of the
    program. *)

(** The literal [do_GET] writes as the body. *)
Definition fixed_body : bytes := "Response from SLOW SERVER (5s delay)".

Definition is09 (req : request) : bool :=
  String.eqb (request_version req) "HTTP/0.9".

(** The header block [send_response(200)], [send_header("Content-type",
    "text/plain")] and [end_headers()] leave in the buffer at clock [t]. *)
Definition head_200 (rt : runtime) (t : Z) : bytes :=
  "HTTP/1.0 200 OK" ++ CRLF ++
  "Server: BaseHTTP/0.6 Python/" ++ python_version rt ++ CRLF ++
  "Date: " ++ formatdate rt t ++ CRLF ++
  "Content-type: text/plain" ++ CRLF ++
  CRLF.

(** The message, the page and the header block of the reply [send_error]
    makes for a method the class does not have. *)
Definition unsupported (rt : runtime) (cmd : string) : string :=
  "Unsupported method (" ++ repr rt cmd ++ ")".

Definition page_501 (rt : runtime) (cmd : string) : bytes :=
  error_page rt 501 (unsupported rt cmd) "Server does not support this operation".

Definition head_501 (rt : runtime) (t : Z) (cmd : string) : bytes :=
  "HTTP/1.0 501 " ++ unsupported rt cmd ++ CRLF ++
  "Server: BaseHTTP/0.6 Python/" ++ python_version rt ++ CRLF ++
  "Date: " ++ formatdate rt t ++ CRLF ++
  "Connection: close" ++ CRLF ++
  "Content-Type: text/html;charset=utf-8" ++ CRLF ++
  "Content-Length: " ++ str_of_int (len (page_501 rt cmd)) ++ CRLF ++
  CRLF.

Definition is_write (e : event) : bool :=
  match e with
  | Sent _ | SendFailed _ => true
  | Slept _ | SleepCut _ => false
  end.

Definition is_sleep (e : event) : bool :=
  match e with
  | Slept _ | SleepCut _ => true
  | Sent _ | SendFailed _ => false
  end.

(** The bytes a trace put on the connection. *)
Definition wire (tr : trace) : bytes :=
  join (flat_map (fun x => match snd x with Sent p => [p] | _ => [] end) tr).

(** One [sendall]: the event it leaves and what it returns. *)
Definition attempt (fails : bool) (p : bytes) : event :=
  if fails then SendFailed p else Sent p.

Definition returns (fails : bool) : result unit :=
  if fails then Raise OSError else Ok tt.

(** What a run leaves to see: its result, the clock and the events. *)
Definition outcome (run : result unit * state) : result unit * Z * trace :=
  (fst run, clock (snd run), events (snd run)).

(** The exception a result carries past [except Exception]. *)
Definition escapes (r : result unit) : option exn :=
  match r with
  | Ok _ => None
  | Raise e => if is_Exception e then None else Some e
  end.

Definition latency (x : served) : Z := ended x - issued x.

(** The run of [do_GET] begun at clock [t] with [k] earlier [sendall]s,
    written out case by case: [f] is the connection's [sendall_raises] and
    [v09] tells an HTTP/0.9 request. *)
Definition GET_run (rt : runtime) (intr : interrupt) (f : Z -> nat -> bool)
    (v09 : bool) (t : Z) (k : nat) : result unit * Z * trace :=
  match cut intr t (t + 5) with
  | Some (sg, t') => (Raise (exn_of_signal sg), t', [(t, SleepCut sg)])
  | None =>
      if v09 then
        (returns (f (t + 5) k), t + 5,
         [(t, Slept 5); (t + 5, attempt (f (t + 5) k) fixed_body)])
      else if f (t + 5) k then
        (Raise OSError, t + 5,
         [(t, Slept 5); (t + 5, SendFailed (head_200 rt (t + 5)))])
      else
        (returns (f (t + 5) (S k)), t + 5,
         [(t, Slept 5); (t + 5, Sent (head_200 rt (t + 5)));
          (t + 5, attempt (f (t + 5) (S k)) fixed_body)])
  end.

(** The run of [send_error(501, ...)] for the method [cmd]. *)
Definition unsupported_run (rt : runtime) (f : Z -> nat -> bool)
    (v09 : bool) (cmd : string) (t : Z) : result unit * Z * trace :=
  let paged :=
    negb (String.eqb cmd "HEAD") && negb (String.eqb (page_501 rt cmd) "") in
  if v09 then
    if paged
    then (returns (f t 0%nat), t, [(t, attempt (f t 0%nat) (page_501 rt cmd))])
    else (Ok tt, t, [])
  else if f t 0%nat then
    (Raise OSError, t, [(t, SendFailed (head_501 rt t cmd))])
  else if paged then
    (returns (f t 1%nat), t,
     [(t, Sent (head_501 rt t cmd));
      (t, attempt (f t 1%nat) (page_501 rt cmd))])
  else (Ok tt, t, [(t, Sent (head_501 rt t cmd))]).


(** Whether the handler of a connection gets to [do_GET]: the first
    request the peer sends is a GET. *)
Definition asks_GET (conn : connection) : bool :=
  match rfile conn with
  | req :: _ => String.eqb (command req) "GET"
  | [] => false
  end.

(** The clock at which the handler of [conn], created at [t], is left, and
    the exception that leaves it past [except Exception]. *)
Definition left_at (intr : interrupt) (conn : connection) (t : Z) : Z :=
  if asks_GET conn then
    match cut intr t (t + 5) with
    | Some (_, t') => t'
    | None => t + 5
    end
  else t.

Definition left_with (intr : interrupt) (conn : connection) (t : Z)
    : option exn :=
  if asks_GET conn then
    match cut intr t (t + 5) with
    | Some (sg, _) => Some (exn_of_signal sg)
    | None => None
    end
  else None.

(** Two servers that differ in their history at most. *)
Definition same_server (a b : server) : Prop :=
  server_address a = server_address b /\
  shutdown_request a = shutdown_request b /\
  now a = now b.

(** Two history entries that differ at most in what was written and in the
    exception a failed write raised. *)
Definition same_course (x y : served) : Prop :=
  issued x = issued y /\ began x = began y /\ ended x = ended y /\
  shut_down x = shut_down y /\
  filter (fun ev => is_sleep (snd ev)) (activity x) =
  filter (fun ev => is_sleep (snd ev)) (activity y).

(** The requirement of concurrent handling, on one history entry: the
    connection is done in about the delay, which is taken generously as
    less than twice the delay. *)
Definition within_delay (x : served) : Prop := latency x < 2 * 5.


Definition with_arrivals (l : list arrival) (e : os) : os :=
  {| argv := argv e;
     python := python e;
     started := started e;
     bind_raises := bind_raises e;
     ephemeral := ephemeral e;
     arrivals := l;
     signalled := signalled e |}.

(** The connection of an arrival, with another fate for its writes. *)
Definition rewire (f : Z -> nat -> bool) (a : arrival) : arrival :=
  {| arrives_at := arrives_at a;
     get_request :=
       option_map (fun c => {| rfile := rfile c; sendall_raises := f |})
                  (get_request a) |}.

(** The response as the specification prints it, for a line ending. *)
Definition spec_response (eol : string) : bytes :=
  "HTTP/1.1 200 OK" ++ eol ++
  "Content-type: text/plain" ++ eol ++
  eol ++
  "Response from SLOW SERVER (5s delay)".

Definition LF : string := String "010" EmptyString.



(** ** Sample inputs *)

(** A runtime for the examples: CPython 3.11.2, dates within the first
    minute of 1970, [repr] for strings that need no escape, and an
    abridged error page. *)
Definition sample_runtime : runtime :=
  {| python_version := "3.11.2";
     formatdate := fun t =>
       "Thu, 01 Jan 1970 00:00:" ++
       (if t <? 10 then "0" else "") ++ str_of_int t ++ " GMT";
     repr := fun s => "'" ++ s ++ "'";
     error_page := fun code message explain =>
       "<h1>Error response</h1><p>Error code: " ++ str_of_int code ++
       "</p><p>Message: " ++ message ++ ".</p><p>Error code explanation: " ++
       str_of_int code ++ " - " ++ explain ++ ".</p>" |}.

Definition get_root : request :=
  {| command := "GET"; path := "/"; request_version := "HTTP/1.1";
     headers := [("Host", "slow-server")]; entity := "" |}.

Definition get_other : request :=
  {| command := "GET"; path := "/health?probe=1"; request_version := "HTTP/1.0";
     headers := [("User-Agent", "curl/8.0"); ("Accept", "*/*")];
     entity := "ignored" |}.

Definition get_simple : request :=
  {| command := "GET"; path := "/"; request_version := "HTTP/0.9";
     headers := []; entity := "" |}.

Definition post_root : request :=
  {| command := "POST"; path := "/"; request_version := "HTTP/1.1";
     headers := [("Content-Length", "2")]; entity := "hi" |}.

(** A peer that stays, and one that has gone by clock [t]: from then on
    every [sendall] raises. *)
Definition alive (req : request) : connection :=
  {| rfile := [req]; sendall_raises := fun _ _ => false |}.

Definition gone_by (t : Z) (req : request) : connection :=
  {| rfile := [req]; sendall_raises := fun now _ => t <=? now |}.

Definition at_once (t : Z) (conns : list connection) : list arrival :=
  map (fun c => {| arrives_at := t; get_request := Some c |}) conns.

(** The program started at clock 0 on a free port, no signal coming. *)
Definition boot (l : list arrival) : os :=
  {| argv := [];
     python := sample_runtime;
     started := 0;
     bind_raises := false;
     ephemeral := 49152;
     arrivals := l;
     signalled := None |}.


Definition interrupted (t : Z) (l : list arrival) : os :=
  {| argv := [];
     python := sample_runtime;
     started := 0;
     bind_raises := false;
     ephemeral := 49152;
     arrivals := l;
     signalled := Some (SIGINT, t) |}.

(** The history entry of a connection accepted at clock [t]. *)
Definition entry_for (rt : runtime) (intr : interrupt) (a : arrival)
    (conn : connection) (t : Z) : served :=
  let run := finish_request rt intr SlowHandler conn t in
  {| issued := arrives_at a;
     began := t;
     activity := events (snd run);
     raised := match fst run with Ok _ => None | Raise e => Some e end;
     ended := clock (snd run);
     shut_down := match fst run with Raise (Killed _) => false | _ => true end |}.

(** A trace in which a failed write, if there is one, is the last event. *)
Fixpoint stops_at_failure (tr : trace) : bool :=
  match tr with
  | [] => true
  | (_, SendFailed _) :: rest => match rest with [] => true | _ => false end
  | _ :: rest => stops_at_failure rest
  end.

Definition has_failure (tr : trace) : bool :=
  existsb (fun ev => match snd ev with SendFailed _ => true | _ => false end) tr.

(** A history entry whose handler, if a write failed, wrote nothing after
    it, raised [OSError] and had its connection shut down. *)
Definition gives_up_cleanly (y : served) : Prop :=
  stops_at_failure (activity y) = true /\
  (has_failure (activity y) = true ->
   raised y = Some OSError /\ shut_down y = true).

(** The sleeps of the handler of [conn] created at [t]. *)
Definition naps (intr : interrupt) (conn : connection) (t : Z) : trace :=
  if asks_GET conn then
    match cut intr t (t + 5) with
    | Some (sg, _) => [(t, SleepCut sg)]
    | None => [(t, Slept 5)]
    end
  else [].

(** ** Further observations *)

(** A connection cut down to the first request its peer sends. *)
Definition first_only (conn : connection) : connection :=
  {| rfile := firstn 1 (rfile conn);
     sendall_raises := sendall_raises conn |}.


(** Whether an arrival gets a handler as far as [do_GET]. *)
Definition sleeps (a : arrival) : bool :=
  match get_request a with
  | Some conn => asks_GET conn
  | None => false
  end.

(** A history whose entries follow one another from clock [t0] on: each
    handler is created no earlier than its connection came and than the
    handler before it was left, and is left no earlier than it was
    created. *)
Fixpoint in_sequence (t0 : Z) (h : list served) : Prop :=
  match h with
  | [] => True
  | x :: rest =>
      t0 <= began x /\ issued x <= began x /\ began x <= ended x /\
      in_sequence (ended x) rest
  end.

(** The clock at which the last handler of a history was left. *)
Definition finish_time (t0 : Z) (h : list served) : Z :=
  fold_left (fun _ x => ended x) h t0.

(** A peer that takes [n] writes and is gone at the next. *)
Definition breaks_after (n : nat) (req : request) : connection :=
  {| rfile := [req]; sendall_raises := fun _ k => Nat.leb n k |}.

Definition head_root : request :=
  {| command := "HEAD"; path := "/"; request_version := "HTTP/1.1";
     headers := []; entity := "" |}.



Definition pipelined : connection :=
  {| rfile := [get_root; post_root]; sendall_raises := fun _ _ => false |}.

(** Arrivals that come one at a time: the first no earlier than [t], each
    next one at least five seconds after the one before. *)
Fixpoint spaced (t : Z) (l : list arrival) : Prop :=
  match l with
  | [] => True
  | a :: rest => t <= arrives_at a /\ spaced (arrives_at a + 5) rest
  end.
(** * Verification *)

(** ** Strings *)

Lemma append_nil_r (s : string) : s ++ "" = s.
Proof. induction s as [|c s IH]; cbn; [reflexivity | now rewrite IH]. Qed.

Lemma append_assoc (a b c : string) : (a ++ b) ++ c = a ++ (b ++ c).
Proof. induction a as [|x a IH]; cbn; [reflexivity | now rewrite IH]. Qed.

(** ** One request, step by step *)

Create HintDb slow.

#[local] Hint Unfold
  handle_one_request finish wfile_flush do_GET send_response
  send_response_only send_header end_headers flush_headers date_time_string
  buffer_append time_sleep wfile_write bind modify gets ret raise
  finish_request try_finally handle send_error
  version_string sys_version : slow.

Ltac run := repeat (progress (autounfold with slow; cbn)).

Ltac done :=
  unfold head_200, head_501, page_501, unsupported, fixed_body, attempt,
    returns;
  repeat first [ rewrite <- app_assoc | rewrite append_assoc
               | rewrite append_nil_r | progress cbn ];
  reflexivity.

Section Runs.

Variable rt : runtime.
Variable intr : interrupt.
Variable conn : connection.


(** [hasattr(self, "do_" + command)] holds for GET alone. *)
Lemma SlowHandler_lookup (cmd : string) :
  SlowHandler ("do_" ++ cmd) =
  if String.eqb cmd "GET" then Some do_GET else None.
Proof. reflexivity. Qed.

Lemma finish_request_GET (req : request) (rest : list request) (t : Z) :
  rfile conn = req :: rest ->
  command req = "GET" ->
  outcome (finish_request rt intr SlowHandler conn t) =
  GET_run rt intr (sendall_raises conn) (is09 req) t 0.
Proof.
  intros Hr Hc.
  unfold finish_request, handle, try_finally. rewrite Hr.
  cbn [handle_requests]. unfold handle_one_request.
  rewrite SlowHandler_lookup, Hc. cbn [String.eqb Ascii.eqb Bool.eqb].
  unfold GET_run, is09, outcome. run.
  destruct (cut intr t (t + 5)) as [[sg t']|]; [reflexivity|].
  run.
  destruct (request_version req =? "HTTP/0.9")%string; run.
  - destruct (sendall_raises conn (t + 5) 0%nat); run; done.
  - destruct (sendall_raises conn (t + 5) 0%nat); run; [done|].
    destruct (sendall_raises conn (t + 5) 1%nat); run; done.
Qed.

Lemma finish_request_unsupported (req : request) (rest : list request) (t : Z) :
  rfile conn = req :: rest ->
  command req <> "GET" ->
  outcome (finish_request rt intr SlowHandler conn t) =
  unsupported_run rt (sendall_raises conn) (is09 req) (command req) t.
Proof.
  intros Hr Hc. apply String.eqb_neq in Hc.
  unfold finish_request, handle, try_finally. rewrite Hr.
  cbn [handle_requests]. unfold handle_one_request.
  rewrite SlowHandler_lookup, Hc.
  unfold unsupported_run, is09, outcome, head_501, page_501, unsupported.
  generalize ("Unsupported method (" ++ repr rt (command req) ++ ")").
  intros msg.
  remember (error_page rt 501 msg "Server does not support this operation")
    as pg eqn:Hpg.
  unfold send_error. cbn [responses Z.eqb Pos.eqb].
  rewrite <- Hpg. clear Hpg.
  run.
  destruct (request_version req =? "HTTP/0.9")%string; run.
  - destruct (command req =? "HEAD")%string; run; [reflexivity|].
    destruct (pg =? "")%string; run; [reflexivity|].
    destruct (sendall_raises conn t 0%nat); run; done.
  - destruct (sendall_raises conn t 0%nat); run; [done|].
    destruct (command req =? "HEAD")%string; run; [done|].
    destruct (pg =? "")%string; run; [done|].
    destruct (sendall_raises conn t 1%nat); run; done.
Qed.

Lemma finish_request_EOF (t : Z) :
  rfile conn = [] ->
  outcome (finish_request rt intr SlowHandler conn t) = (Ok tt, t, []).
Proof.
  intros Hr. unfold finish_request, handle, try_finally. rewrite Hr.
  reflexivity.
Qed.

End Runs.

Lemma outcome_eq (run : result unit * state) r t tr :
  outcome run = (r, t, tr) ->
  fst run = r /\ clock (snd run) = t /\ events (snd run) = tr.
Proof. unfold outcome. intros H. injection H as -> -> ->. auto. Qed.

(** ** One connection *)

Section Connection.

Variable rt : runtime.
Variable intr : interrupt.

(** The outcome of any connection is one of the three runs above. *)
Lemma finish_request_cases (conn : connection) (t : Z) :
  outcome (finish_request rt intr SlowHandler conn t) =
  match rfile conn with
  | [] => (Ok tt, t, [])
  | req :: _ =>
      if String.eqb (command req) "GET"
      then GET_run rt intr (sendall_raises conn) (is09 req) t 0
      else unsupported_run rt (sendall_raises conn) (is09 req) (command req) t
  end.
Proof.
  destruct (rfile conn) as [|req rest] eqn:Hr.
  - now apply finish_request_EOF.
  - destruct (String.eqb_spec (command req) "GET") as [Hc|Hc].
    + now apply finish_request_GET with (rest := rest).
    + now apply finish_request_unsupported with (rest := rest).
Qed.

Lemma escapes_returns (b : bool) : escapes (returns b) = None.
Proof. now destruct b. Qed.

Lemma escapes_signal (sg : signal) :
  escapes (Raise (exn_of_signal sg)) = Some (exn_of_signal sg).
Proof. now destruct sg. Qed.

(** When the handler is left, and with what, depends on the connection
    through [asks_GET] alone. *)
Lemma finish_request_left (conn : connection) (t : Z) :
  clock (snd (finish_request rt intr SlowHandler conn t)) = left_at intr conn t /\
  escapes (fst (finish_request rt intr SlowHandler conn t)) = left_with intr conn t.
Proof.
  pose proof (finish_request_cases conn t) as H.
  unfold left_at, left_with, asks_GET.
  destruct (rfile conn) as [|req rest].
  - apply outcome_eq in H as (-> & -> & _). auto.
  - destruct (String.eqb (command req) "GET").
    + unfold GET_run in H.
      destruct (cut intr t (t + 5)) as [[sg t']|].
      * apply outcome_eq in H as (-> & -> & _). split; [reflexivity|].
        apply escapes_signal.
      * destruct (is09 req); [|destruct (sendall_raises conn (t + 5) 0%nat)];
          apply outcome_eq in H as (-> & -> & _);
          split; try reflexivity; apply escapes_returns.
    + unfold unsupported_run in H.
      destruct (is09 req);
        [destruct (negb _ && negb _)
        |destruct (sendall_raises conn t 0%nat); [|destruct (negb _ && negb _)]];
        apply outcome_eq in H as (-> & -> & _);
        split; try reflexivity; apply escapes_returns.
Qed.

End Connection.

(** ** The loop *)

Section Loop.

Variable rt : runtime.
Variable intr : interrupt.

(** What [_handle_request_noblock] does with an accepted connection: one
    entry goes to the history, and the loop goes on unless a signal came. *)
Lemma noblock_entry (a : arrival) (conn : connection) (srv : server) :
  get_request a = Some conn ->
  _handle_request_noblock rt intr SlowHandler a srv =
  (log (entry_for rt intr a conn (now srv)) srv, left_with intr conn (now srv)).
Proof.
  intros Ha. unfold _handle_request_noblock, entry_for. rewrite Ha.
  destruct (finish_request_left rt intr conn (now srv)) as [_ Hesc].
  destruct (finish_request rt intr SlowHandler conn (now srv)) as [r s].
  cbn [fst snd] in *. rewrite <- Hesc.
  destruct r as [u|e]; cbn [escapes]; [reflexivity|].
  destruct (is_Exception e) eqn:He; destruct e; try discriminate; reflexivity.
Qed.

Lemma entry_for_times (a : arrival) (conn : connection) (t : Z) :
  issued (entry_for rt intr a conn t) = arrives_at a /\
  began (entry_for rt intr a conn t) = t /\
  ended (entry_for rt intr a conn t) = left_at intr conn t.
Proof.
  destruct (finish_request_left rt intr conn t) as [Hclock _].
  unfold entry_for. cbn. auto.
Qed.

Lemma noblock_refused (a : arrival) (srv : server) :
  get_request a = None ->
  _handle_request_noblock rt intr SlowHandler a srv = (srv, None).
Proof. intros Ha. unfold _handle_request_noblock. now rewrite Ha. Qed.

(** The loop never touches the address nor the shutdown flag. *)
Lemma noblock_fixed (a : arrival) (srv : server) :
  server_address (fst (_handle_request_noblock rt intr SlowHandler a srv)) =
    server_address srv /\
  shutdown_request (fst (_handle_request_noblock rt intr SlowHandler a srv)) =
    shutdown_request srv.
Proof.
  destruct (get_request a) as [conn|] eqn:Ha.
  - rewrite (noblock_entry a conn srv Ha). now cbn.
  - rewrite noblock_refused by assumption. now cbn.
Qed.

Lemma serve_forever_fixed (pending : list arrival) (srv : server) :
  server_address (fst (serve_forever rt intr SlowHandler pending srv)) =
    server_address srv /\
  shutdown_request (fst (serve_forever rt intr SlowHandler pending srv)) =
    shutdown_request srv.
Proof.
  revert srv. induction pending as [|a rest IH]; intros srv; cbn.
  - destruct (shutdown_request srv) eqn:Hs; [now cbn|].
    destruct intr as [[sg t]|]; now cbn.
  - destruct (shutdown_request srv) eqn:Hs; [now cbn|].
    destruct (cut intr (now srv) (Z.max (now srv) (arrives_at a))) as [[sg t]|];
      [now cbn|].
    pose proof (noblock_fixed a (at_clock (Z.max (now srv) (arrives_at a)) srv))
      as [Ha Hf].
    destruct (_handle_request_noblock _ _ _ a _) as [srv' [e|]]; cbn in *.
    + now rewrite Hf, Ha.
    + destruct (IH srv') as [IHa IHf]. now rewrite IHa, IHf, Ha, Hf.
Qed.

(** A loop whose flag is clear never returns: it waits, or a signal ends
    it. *)
Lemma serve_forever_end (pending : list arrival) (srv : server) :
  shutdown_request srv = false ->
  match snd (serve_forever rt intr SlowHandler pending srv) with
  | Blocked => intr = None
  | Returned => False
  | Escaped e => exists sg t, intr = Some (sg, t) /\ e = exn_of_signal sg
  end.
Proof.
  revert srv. induction pending as [|a rest IH]; intros srv Hs; cbn; rewrite Hs.
  - destruct intr as [[sg t]|]; cbn; eauto.
  - destruct (cut intr (now srv) (Z.max (now srv) (arrives_at a)))
      as [[sg t]|] eqn:Hcut.
    + cbn. unfold cut in Hcut. destruct intr as [[sg' t']|]; [|discriminate].
      destruct (t' <? _); [|discriminate]. injection Hcut as -> _. eauto.
    + pose proof (noblock_fixed a (at_clock (Z.max (now srv) (arrives_at a)) srv))
        as [_ Hf].
      destruct (get_request a) as [conn|] eqn:Ha.
      * rewrite (noblock_entry a conn _ Ha) in *. cbn in Hf.
        destruct (left_with intr conn _) as [e|] eqn:Hl.
        -- cbn. unfold left_with in Hl.
           destruct (asks_GET conn); [|discriminate].
           unfold cut in Hl. destruct intr as [[sg' t']|]; [|discriminate].
           destruct (t' <? _); [|discriminate]. injection Hl as <-. eauto.
        -- apply IH. now cbn.
      * rewrite noblock_refused by assumption. apply IH. now cbn.
Qed.

End Loop.

(** ** The listener *)

(** C6. The listener is bound to all interfaces ("0.0.0.0"), port 80:
    whatever the arguments of the process, whatever arrives and whenever a
    signal comes, the server that [main] builds carries that address from
    the constructor to the end of the run.  No server exists only when
    [bind] failed. *)
Theorem C6_listener_address (e : os) :
  match fst (main e) with
  | Some srv => server_address srv = ("0.0.0.0", 80)
  | None => bind_raises e = true
  end.
Proof.
  unfold main, TCPServer.
  destruct (bind_raises e); [reflexivity|].
  match goal with
  | |- context [serve_forever ?rt ?i ?c ?p ?s] =>
      pose proof (serve_forever_fixed rt i p s) as [Ha _];
      destruct (serve_forever rt i c p s) as [srv' l]
  end.
  cbn in *. exact Ha.
Qed.



(** ** One request *)

Lemma GET_run_new_events rt intr f v09 t k r t' new :
  GET_run rt intr f v09 t k = (r, t', new) ->
  forall u e, In (u, e) new -> is_write e = true ->
    hd_error new = Some (t, Slept 5) /\ u = t + 5.
Proof.
  unfold GET_run, attempt. intros H u e Hin Hw.
  destruct (cut intr t (t + 5)) as [[sg c]|];
    [|destruct v09; [|destruct (f (t + 5) k)]];
    injection H as <- <- <-; cbn in Hin;
    repeat (destruct Hin as [[= <- <-]|Hin]; try discriminate; auto);
    contradiction.
Qed.



(** A GET on a connection whose writes succeed. *)
Lemma GET_on_live_connection
    (rt : runtime) (conn : connection) (req : request) (rest : list request)
    (t : Z) :
  rfile conn = req :: rest ->
  command req = "GET" ->
  (forall u k, sendall_raises conn u k = false) ->
  outcome (finish_request rt None SlowHandler conn t) =
  (Ok tt, t + 5,
   (t, Slept 5)
   :: (if is09 req then [] else [(t + 5, Sent (head_200 rt (t + 5)))])
   ++ [(t + 5, Sent fixed_body)])%list.
Proof.
  intros Hr Hc Hf.
  rewrite (finish_request_GET rt None conn req rest t Hr Hc).
  unfold GET_run. cbn. rewrite !Hf. now destruct (is09 req).
Qed.




(** C4, as the code has it. The bytes a GET that is not HTTP/0.9 gets on
    a connection whose writes succeed: the status line of HTTP/1.0, the
    headers [Server], [Date] and [Content-type], an empty line and the
    body, every line ended by CR LF.  The date is that of the end of the
    delay. *)
Theorem C4_response_on_the_wire
    (rt : runtime) (conn : connection) (req : request) (rest : list request)
    (t : Z) :
  rfile conn = req :: rest ->
  command req = "GET" ->
  request_version req <> "HTTP/0.9" ->
  (forall u k, sendall_raises conn u k = false) ->
  wire (events (snd (finish_request rt None SlowHandler conn t))) =
  "HTTP/1.0 200 OK" ++ CRLF ++
  "Server: BaseHTTP/0.6 Python/" ++ python_version rt ++ CRLF ++
  "Date: " ++ formatdate rt (t + 5) ++ CRLF ++
  "Content-type: text/plain" ++ CRLF ++
  CRLF ++
  "Response from SLOW SERVER (5s delay)".
Proof.
  intros Hr Hc Hv Hf.
  pose proof (GET_on_live_connection rt conn req rest t Hr Hc Hf) as H.
  apply outcome_eq in H as (_ & _ & ->).
  apply String.eqb_neq in Hv. unfold is09. rewrite Hv.
  unfold wire, head_200, fixed_body.
  repeat first [ rewrite append_assoc | rewrite append_nil_r | progress cbn ].
  reflexivity.
Qed.

Lemma C4_response_on_the_wire_witness :
  wire (events (snd (finish_request sample_runtime None SlowHandler
                       (alive get_root) 0))) =
  "HTTP/1.0 200 OK" ++ CRLF ++
  "Server: BaseHTTP/0.6 Python/3.11.2" ++ CRLF ++
  "Date: Thu, 01 Jan 1970 00:00:05 GMT" ++ CRLF ++
  "Content-type: text/plain" ++ CRLF ++
  CRLF ++
  "Response from SLOW SERVER (5s delay)".
Proof.
  apply (C4_response_on_the_wire sample_runtime (alive get_root) get_root [] 0);
    try reflexivity.
  discriminate.
Defined.

(** C4, as the specification has it, fails: the bytes sent for a GET are
    not the four lines of the specification, under either line ending.
    The status line says HTTP/1.0, and [send_response] adds the headers
    [Server] and [Date]. *)
Lemma C4_wire_counterexample :
  let sent := wire (events (snd (finish_request sample_runtime None
                                   SlowHandler (alive get_root) 0))) in
  sent <> spec_response CRLF /\
  sent <> spec_response LF /\
  substring 0 17 sent = "HTTP/1.0 200 OK" ++ CRLF.
Proof.
  vm_compute. repeat split; discriminate.
Qed.






(** ** Many connections *)

Section Turns.

Variable rt : runtime.

Lemma asks_GET_first (conn : connection) (req : request) (rest : list request) :
  rfile conn = req :: rest -> command req = "GET" -> asks_GET conn = true.
Proof.
  intros Hr Hc. unfold asks_GET. rewrite Hr, Hc. reflexivity.
Qed.

Lemma asks_GET_inv (conn : connection) :
  asks_GET conn = true ->
  exists req rest, rfile conn = req :: rest /\ command req = "GET".
Proof.
  unfold asks_GET. destruct (rfile conn) as [|req rest]; [discriminate|].
  intros H. apply String.eqb_eq in H. eauto.
Qed.

(** With no signal, a handler that gets to [do_GET] begins with the whole
    sleep and writes only after it, whatever the connection. *)
Lemma entry_for_GET (a : arrival) (conn : connection) (t : Z) :
  asks_GET conn = true ->
  ended (entry_for rt None a conn t) = t + 5 /\
  hd_error (activity (entry_for rt None a conn t)) = Some (t, Slept 5) /\
  (forall u e, In (u, e) (activity (entry_for rt None a conn t)) ->
     is_write e = true -> u = t + 5).
Proof.
  intros Hg. destruct (asks_GET_inv conn Hg) as (req & rest & Hr & Hc).
  pose proof (finish_request_GET rt None conn req rest t Hr Hc) as H.
  destruct (GET_run rt None (sendall_raises conn) (is09 req) t 0)
    as [[r c] new] eqn:Hrun.
  apply outcome_eq in H as (_ & Hclock & Hev).
  unfold entry_for. cbn [ended activity]. rewrite Hclock, Hev.
  pose proof (GET_run_new_events _ _ _ _ _ _ _ _ _ Hrun) as Hnew.
  unfold GET_run in Hrun. cbn in Hrun.
  split; [|split].
  - destruct (is09 req); [|destruct (sendall_raises conn (t + 5) 0%nat)];
      now injection Hrun as _ <- _.
  - destruct (is09 req); [|destruct (sendall_raises conn (t + 5) 0%nat)];
      now injection Hrun as _ _ <-.
  - intros u e Hin Hw. now apply (Hnew u e Hin Hw).
Qed.

Lemma left_with_None (conn : connection) (t : Z) : left_with None conn t = None.
Proof. unfold left_with. now destruct (asks_GET conn). Qed.

(** Connections that are there when the loop looks, each asking a GET,
    are taken one after the other, five seconds each. *)
Lemma serve_forever_in_turn (t0 : Z) (pending : list arrival) (srv : server) :
  shutdown_request srv = false ->
  Forall (fun a => arrives_at a = t0 /\
                   exists conn, get_request a = Some conn /\
                                asks_GET conn = true) pending ->
  exists srv' new,
    serve_forever rt None SlowHandler pending srv = (srv', Blocked) /\
    history srv' = (history srv ++ new)%list /\
    List.length new = List.length pending /\
    forall k x, nth_error new k = Some x ->
      issued x = t0 /\
      began x = Z.max (now srv) t0 + 5 * Z.of_nat k /\
      ended x = Z.max (now srv) t0 + 5 * (Z.of_nat k + 1).
Proof.
  revert srv. induction pending as [|a rest IH]; intros srv Hs Hall.
  - exists srv, []. cbn. rewrite Hs, app_nil_r.
    split; [reflexivity|]. split; [reflexivity|]. split; [reflexivity|].
    intros [|k] x; discriminate.
  - inversion Hall as [|a' rest' (Ht & conn & Ha & Hg) Hrest]; subst a' rest'.
    cbn [serve_forever]. rewrite Hs. cbn [cut]. rewrite Ht.
    set (T := Z.max (now srv) t0).
    rewrite (noblock_entry rt None a conn (at_clock T srv) Ha).
    rewrite left_with_None. cbn [now at_clock].
    destruct (entry_for_times rt None a conn T) as (Hi & Hb & _).
    destruct (entry_for_GET a conn T Hg) as (He & _).
    set (x0 := entry_for rt None a conn T) in *.
    destruct (IH (log x0 (at_clock T srv)) Hs Hrest)
      as (srv' & new & Hrun & Hh & Hlen & Hnew).
    exists srv', (x0 :: new). rewrite Hrun. split; [reflexivity|].
    split; [|split].
    + rewrite Hh. cbn. now rewrite <- app_assoc.
    + cbn. now rewrite Hlen.
    + intros [|k] x Hx.
      * cbn in Hx. injection Hx as <-. rewrite Hi, Hb, He. cbn. lia.
      * cbn [nth_error] in Hx. destruct (Hnew k x Hx) as (Hxi & Hxb & Hxe).
        cbn [now log] in Hxb, Hxe. rewrite He in Hxb, Hxe.
        rewrite Hxi, Hxb, Hxe. unfold T. lia.
Qed.

End Turns.

(** C1, as the code has it. [HTTPServer] takes connections one at a time:
    of the connections that reach a free server together at [t0], each
    asking a GET, the one accepted in place [k] (from 0) has its handler
    created only at [t0 + 5 k], when the one before is done, and is done
    [5 (k + 1)] seconds after it came, so the last of N waits N times the
    delay. *)
Theorem C1_connections_are_served_in_turn (e : os) (t0 : Z) :
  bind_raises e = false ->
  signalled e = None ->
  started e <= t0 ->
  Forall (fun a => arrives_at a = t0 /\
                   exists conn, get_request a = Some conn /\
                                asks_GET conn = true) (arrivals e) ->
  exists srv,
    main e = (Some srv, Serving) /\
    List.length (history srv) = List.length (arrivals e) /\
    forall k x, nth_error (history srv) k = Some x ->
      began x = t0 + 5 * Z.of_nat k /\
      latency x = 5 * (Z.of_nat k + 1).
Proof.
  intros Hb Hs Ht Hall. unfold main, TCPServer. rewrite Hb, Hs.
  match goal with
  | |- context [serve_forever ?rt None SlowHandler ?p ?s] =>
      destruct (serve_forever_in_turn rt t0 p s eq_refl Hall)
        as (srv' & new & Hrun & Hh & Hlen & Hnew)
  end.
  rewrite Hrun. exists srv'. cbn [now history app] in Hh, Hnew.
  split; [reflexivity|]. rewrite Hh. split; [exact Hlen|].
  intros k x Hx. destruct (Hnew k x Hx) as (Hi & Hbg & He).
  unfold latency. rewrite Hi, Hbg, He. lia.
Qed.

Lemma C1_connections_are_served_in_turn_witness :
  exists srv,
    main (boot (at_once 0 [alive get_root; gone_by 2 get_other;
                           alive get_simple])) = (Some srv, Serving) /\
    List.length (history srv) = 3%nat /\
    forall k x, nth_error (history srv) k = Some x ->
      began x = 0 + 5 * Z.of_nat k /\
      latency x = 5 * (Z.of_nat k + 1).
Proof.
  apply (C1_connections_are_served_in_turn
           (boot (at_once 0 [alive get_root; gone_by 2 get_other;
                             alive get_simple])) 0).
  - reflexivity.
  - reflexivity.
  - cbn. lia.
  - repeat constructor; eexists; split; reflexivity.
Defined.

(** C1, as the specification has it, fails: of two connections that come
    together, the second is done after twice the delay. *)
Lemma C1_two_at_once_counterexample :
  exists srv,
    main (boot (at_once 0 [alive get_root; alive get_root])) =
      (Some srv, Serving) /\
    map latency (history srv) = [5; 2 * 5] /\
    ~ Forall within_delay (history srv).
Proof.
  eexists. split; [vm_compute; reflexivity|].
  split; [reflexivity|].
  intros H. inversion H as [|x l _ H2]; subst.
  inversion H2 as [|y l' Hy _]; subst.
  unfold within_delay, latency in Hy. cbn in Hy. lia.
Qed.

(** C10. The sleep does not look at the peer. For a connection whose
    first request is a GET, whatever [sendall] does on it and from
    whatever time on, so also when the peer has gone before or during the
    delay: the handler starts with a sleep of 5 that runs to its end,
    attempts its first write only five seconds after it began, and keeps
    the server for exactly those five seconds. *)
Theorem C10_sleep_ignores_the_peer
    (rt : runtime) (a : arrival) (conn : connection) (req : request)
    (rest : list request) (srv : server) :
  get_request a = Some conn ->
  rfile conn = req :: rest ->
  command req = "GET" ->
  exists x,
    _handle_request_noblock rt None SlowHandler a srv = (log x srv, None) /\
    began x = now srv /\
    ended x = now srv + 5 /\
    hd_error (activity x) = Some (now srv, Slept 5) /\
    (forall u e, In (u, e) (activity x) -> is_write e = true ->
       u = now srv + 5).
Proof.
  intros Ha Hr Hc.
  exists (entry_for rt None a conn (now srv)).
  rewrite (noblock_entry rt None a conn srv Ha), left_with_None.
  destruct (entry_for_times rt None a conn (now srv)) as (_ & Hb & _).
  destruct (entry_for_GET rt a conn (now srv)
              (asks_GET_first conn req rest Hr Hc)) as (He & Hh & Hw).
  auto.
Qed.

Lemma C10_sleep_ignores_the_peer_witness :
  exists x,
    _handle_request_noblock sample_runtime None SlowHandler
      {| arrives_at := 0; get_request := Some (gone_by 2 get_root) |}
      {| server_address := address; shutdown_request := false;
         now := 0; history := [] |} =
    (log x {| server_address := address; shutdown_request := false;
              now := 0; history := [] |}, None) /\
    began x = 0 /\
    ended x = 0 + 5 /\
    hd_error (activity x) = Some (0, Slept 5) /\
    (forall u e, In (u, e) (activity x) -> is_write e = true -> u = 0 + 5).
Proof.
  apply (C10_sleep_ignores_the_peer sample_runtime
           {| arrives_at := 0; get_request := Some (gone_by 2 get_root) |}
           (gone_by 2 get_root) get_root []
           {| server_address := address; shutdown_request := false;
              now := 0; history := [] |});
    reflexivity.
Defined.

(** ** Failures of one connection *)

Section Failures.

Variable rt : runtime.
Variable intr : interrupt.

(** Case analysis on what the handler of [conn], created at [t], does. *)
Ltac handler_cases conn t :=
  let H := fresh "H" in
  pose proof (finish_request_cases rt intr conn t) as H;
  unfold left_with, left_at, naps, asks_GET;
  destruct (rfile conn) as [|?req ?rest];
  [| destruct (String.eqb (command req) "GET");
     [ unfold GET_run in H;
       destruct (cut intr t (t + 5)) as [[?sg ?c]|];
       [| destruct (is09 req);
          [| destruct (sendall_raises conn (t + 5) 0%nat) ] ]
     | unfold unsupported_run in H;
       destruct (is09 req);
       [ destruct (negb _ && negb _)
       | destruct (sendall_raises conn t 0%nat);
         [| destruct (negb _ && negb _) ] ] ] ];
  apply outcome_eq in H as (?Hr & ?Hc & ?He);
  unfold entry_for; cbn [activity raised shut_down ended];
  rewrite ?Hr, ?Hc, ?He;
  unfold returns, attempt;
  repeat match goal with
         | |- context [sendall_raises ?c ?u ?k] =>
             destruct (sendall_raises c u k)
         end.

Lemma entry_for_course (a : arrival) (conn : connection) (t : Z) :
  shut_down (entry_for rt intr a conn t) =
    match left_with intr conn t with
    | Some (Killed _) => false
    | _ => true
    end /\
  filter (fun ev => is_sleep (snd ev)) (activity (entry_for rt intr a conn t)) =
    naps intr conn t.
Proof.
  handler_cases conn t; try (split; reflexivity).
  all: destruct sg; split; reflexivity.
Qed.

(** After a write that failed the handler writes no more: the exception
    leaves it, and the connection is shut down. *)
Lemma entry_for_gives_up (a : arrival) (conn : connection) (t : Z) :
  gives_up_cleanly (entry_for rt intr a conn t).
Proof.
  unfold gives_up_cleanly.
  handler_cases conn t; cbn; try (split; [reflexivity | intros; auto; discriminate]).
Qed.

(** The entry of a connection and that of the same connection with another
    fate for its writes. *)
Lemma entry_for_rewire (f : Z -> nat -> bool) (a : arrival)
    (conn : connection) (t : Z) :
  same_course
    (entry_for rt intr a conn t)
    (entry_for rt intr (rewire f a)
       {| rfile := rfile conn; sendall_raises := f |} t).
Proof.
  unfold same_course.
  destruct (entry_for_times rt intr a conn t) as (-> & -> & ->).
  destruct (entry_for_times rt intr (rewire f a)
              {| rfile := rfile conn; sendall_raises := f |} t)
    as (-> & -> & ->).
  destruct (entry_for_course a conn t) as (-> & ->).
  destruct (entry_for_course (rewire f a)
              {| rfile := rfile conn; sendall_raises := f |} t) as (-> & ->).
  unfold left_at, left_with, naps, asks_GET. cbn. auto.
Qed.

Ltac settle :=
  cbn; unfold same_server; cbn; repeat split; try congruence; auto.

Lemma same_server_refl (srv : server) : same_server srv srv.
Proof. unfold same_server. auto. Qed.

(** The loop reads the history nowhere: from two servers that differ in
    their history at most it goes the same way and adds the same entries. *)
Lemma serve_forever_same (pending : list arrival) (srv1 srv2 : server) :
  same_server srv1 srv2 ->
  exists added,
    history (fst (serve_forever rt intr SlowHandler pending srv1)) =
      (history srv1 ++ added)%list /\
    history (fst (serve_forever rt intr SlowHandler pending srv2)) =
      (history srv2 ++ added)%list /\
    same_server (fst (serve_forever rt intr SlowHandler pending srv1))
                (fst (serve_forever rt intr SlowHandler pending srv2)) /\
    snd (serve_forever rt intr SlowHandler pending srv1) =
    snd (serve_forever rt intr SlowHandler pending srv2).
Proof.
  revert srv1 srv2. induction pending as [|a rest IH];
    intros srv1 srv2 (Ha & Hf & Hn); cbn [serve_forever]; rewrite <- Hf, <- Hn.
  - exists []. rewrite !app_nil_r.
    destruct (shutdown_request srv1) eqn:Hs; [settle|].
    destruct intr as [[sg t]|]; settle.
  - destruct (shutdown_request srv1) eqn:Hs.
    { exists []. rewrite !app_nil_r. settle. }
    set (T := Z.max (now srv1) (arrives_at a)).
    destruct (cut intr (now srv1) T) as [[sg t]|].
    { exists []. rewrite !app_nil_r. settle. }
    destruct (get_request a) as [conn|] eqn:Hg.
    + rewrite !(noblock_entry rt intr a conn _ Hg). cbn [now at_clock].
      set (x := entry_for rt intr a conn T).
      destruct (left_with intr conn T) as [e|].
      * exists [x]. settle.
      * destruct (IH (log x (at_clock T srv1)) (log x (at_clock T srv2)))
          as (added & H1 & H2 & Hsame & Hend); [settle|].
        exists (x :: added). rewrite H1, H2. cbn [history log at_clock].
        rewrite <- !app_assoc. cbn. auto.
    + rewrite !(noblock_refused rt intr a _ Hg).
      destruct (IH (at_clock T srv1) (at_clock T srv2))
        as (added & H1 & H2 & Hsame & Hend); [settle|].
      exists added. rewrite H1, H2. cbn. auto.
Qed.

(** Whatever becomes of the writes of one connection, the loop ends the
    same way, leaves the same server, and the history is the same but for
    the entry of that connection, which keeps its times and its sleep. *)
Ltac finish :=
  cbn; rewrite ?app_nil_r;
  repeat match goal with
         | |- _ /\ _ => split
         | |- Forall2 _ _ _ => constructor
         | |- same_server ?s ?s => apply same_server_refl
         | |- same_server _ _ => unfold same_server; cbn
         | |- (_ <= _)%nat => lia
         end;
  try congruence; auto.

Lemma serve_forever_rewire (f : Z -> nat -> bool) (a : arrival)
    (post pre : list arrival) (srv : server) :
  exists before x x' after,
    history (fst (serve_forever rt intr SlowHandler (pre ++ a :: post) srv)) =
      (history srv ++ before ++ x ++ after)%list /\
    history (fst (serve_forever rt intr SlowHandler
                    (pre ++ rewire f a :: post) srv)) =
      (history srv ++ before ++ x' ++ after)%list /\
    Forall2 same_course x x' /\
    (List.length x <= 1)%nat /\
    same_server
      (fst (serve_forever rt intr SlowHandler (pre ++ a :: post) srv))
      (fst (serve_forever rt intr SlowHandler (pre ++ rewire f a :: post) srv)) /\
    snd (serve_forever rt intr SlowHandler (pre ++ a :: post) srv) =
    snd (serve_forever rt intr SlowHandler (pre ++ rewire f a :: post) srv).
Proof.
  revert srv. induction pre as [|a0 pre IH]; intros srv;
    cbn [app serve_forever].
  - destruct (shutdown_request srv) eqn:Hs.
    { exists [], [], [], []. finish. }
    change (arrives_at (rewire f a)) with (arrives_at a).
    set (T := Z.max (now srv) (arrives_at a)).
    destruct (cut intr (now srv) T) as [[sg t]|].
    { exists [], [], [], []. finish. }
    destruct (get_request a) as [conn|] eqn:Hg.
    + assert (Hg' : get_request (rewire f a) =
                    Some {| rfile := rfile conn; sendall_raises := f |})
        by (unfold rewire; cbn; now rewrite Hg).
      rewrite (noblock_entry rt intr a conn _ Hg).
      rewrite (noblock_entry rt intr (rewire f a) _ _ Hg').
      cbn [now at_clock].
      pose proof (entry_for_rewire f a conn T) as Hx.
      pose proof Hx as (_ & _ & He & _).
      set (x := entry_for rt intr a conn T) in *.
      set (x' := entry_for rt intr (rewire f a) _ T) in *.
      change (left_with intr {| rfile := rfile conn; sendall_raises := f |} T)
        with (left_with intr conn T).
      destruct (left_with intr conn T) as [e|].
      * exists [], [x], [x'], []. finish.
      * destruct (serve_forever_same post (log x (at_clock T srv))
                    (log x' (at_clock T srv)))
          as (added & H1 & H2 & Hsame & Hend); [settle|].
        exists [], [x], [x'], added. rewrite H1, H2. cbn [history log at_clock].
        rewrite <- !app_assoc. finish; apply Hsame.
    + assert (Hg' : get_request (rewire f a) = None)
        by (unfold rewire; cbn; now rewrite Hg).
      rewrite (noblock_refused rt intr a _ Hg).
      rewrite (noblock_refused rt intr (rewire f a) _ Hg').
      destruct (serve_forever_same post (at_clock T srv) (at_clock T srv)
                  (same_server_refl _))
        as (added & H1 & _ & _ & _).
      exists added, [], [], []. rewrite H1. finish.
  - destruct (shutdown_request srv) eqn:Hs.
    { exists [], [], [], []. finish. }
    set (T := Z.max (now srv) (arrives_at a0)).
    destruct (cut intr (now srv) T) as [[sg t]|].
    { exists [], [], [], []. finish. }
    destruct (get_request a0) as [conn|] eqn:Hg.
    + rewrite (noblock_entry rt intr a0 conn _ Hg). cbn [now at_clock].
      set (x0 := entry_for rt intr a0 conn T).
      destruct (left_with intr conn T) as [e|].
      * exists [x0], [], [], []. finish.
      * destruct (IH (log x0 (at_clock T srv)))
          as (before & x & x' & after & H1 & H2 & Hx & Hlen & Hsame & Hend).
        exists (x0 :: before), x, x', after. rewrite H1, H2.
        cbn [history log at_clock]. rewrite <- !app_assoc.
        finish; apply Hsame.
    + rewrite (noblock_refused rt intr a0 _ Hg).
      destruct (IH (at_clock T srv))
        as (before & x & x' & after & H1 & H2 & Hx & Hlen & Hsame & Hend).
      exists before, x, x', after. rewrite H1, H2.
      finish; apply Hsame.
Qed.

(** Every entry of the history is the entry of some connection. *)
Lemma serve_forever_history (P : served -> Prop) (pending : list arrival)
    (srv : server) :
  (forall a conn t, P (entry_for rt intr a conn t)) ->
  Forall P (history srv) ->
  Forall P (history (fst (serve_forever rt intr SlowHandler pending srv))).
Proof.
  intros HP. revert srv. induction pending as [|a rest IH]; intros srv Hh;
    cbn [serve_forever].
  - destruct (shutdown_request srv); [exact Hh|].
    destruct intr as [[sg t]|]; exact Hh.
  - destruct (shutdown_request srv); [exact Hh|].
    destruct (cut intr (now srv) _) as [[sg t]|]; [exact Hh|].
    destruct (get_request a) as [conn|] eqn:Hg.
    + rewrite (noblock_entry rt intr a conn _ Hg).
      assert (Hlog : Forall P (history (log (entry_for rt intr a conn
                 (now (at_clock (Z.max (now srv) (arrives_at a)) srv)))
                 (at_clock (Z.max (now srv) (arrives_at a)) srv)))).
      { cbn. apply Forall_app. split; [exact Hh|]. constructor; auto. }
      destruct (left_with intr conn _); [exact Hlog|]. now apply IH.
    + rewrite (noblock_refused rt intr a _ Hg). now apply IH.
Qed.

End Failures.

(** C7. A failure on one connection stays on that connection. Take any
    run and any one of its connections, and give the writes of that
    connection any other fate (the peer gone before the delay is over, a
    write that fails, or none of this).  The process ends the same way,
    so no failed write is fatal, and without a signal it goes on serving;
    the server is left the same; the history is the same entry for entry
    except for the entry of that connection, which keeps its times and its
    sleep.  And in every entry a failed write is the last thing the
    handler did: it raised [OSError] there and the connection was shut
    down. *)
Theorem C7_write_failures_stay_local
    (e : os) (pre post : list arrival) (a : arrival) (f : Z -> nat -> bool) :
  arrivals e = (pre ++ a :: post)%list ->
  snd (main (with_arrivals (pre ++ rewire f a :: post) e)) = snd (main e) /\
  (bind_raises e = false -> signalled e = None -> snd (main e) = Serving) /\
  (forall srv, fst (main e) = Some srv ->
     Forall gives_up_cleanly (history srv) /\
     exists srv' before x x' after,
       fst (main (with_arrivals (pre ++ rewire f a :: post) e)) = Some srv' /\
       same_server srv srv' /\
       history srv = (before ++ x ++ after)%list /\
       history srv' = (before ++ x' ++ after)%list /\
       Forall2 same_course x x' /\
       (List.length x <= 1)%nat).
Proof.
  intros Harr. unfold main, TCPServer.
  cbn [with_arrivals bind_raises ephemeral started python signalled arrivals].
  rewrite Harr.
  destruct (bind_raises e) eqn:Hb.
  { split; [reflexivity|]. split; [discriminate|]. intros srv [=]. }
  set (srv0 := {| server_address := getsockname address (ephemeral e);
                  shutdown_request := false;
                  now := started e;
                  history := [] |}).
  destruct (serve_forever_rewire (python e) (signalled e) f a post pre srv0)
    as (before & x & x' & after & H1 & H2 & Hx & Hlen & Hsame & Hend).
  pose proof (serve_forever_history (python e) (signalled e) gives_up_cleanly
                (pre ++ a :: post) srv0
                (entry_for_gives_up (python e) (signalled e))
                (Forall_nil _)) as Hclean.
  pose proof (serve_forever_end (python e) (signalled e) (pre ++ a :: post)
                srv0 eq_refl) as Hstop.
  destruct (serve_forever (python e) (signalled e) SlowHandler
              (pre ++ a :: post) srv0) as [srv1 l1].
  destruct (serve_forever (python e) (signalled e) SlowHandler
              (pre ++ rewire f a :: post) srv0) as [srv2 l2].
  cbn [fst snd] in *. subst l2.
  split; [reflexivity|]. split.
  - intros _ Hsig. rewrite Hsig in Hstop.
    destruct l1 as [| |ex]; [reflexivity | contradiction |].
    destruct Hstop as (sg & t & [=] & _).
  - intros srv [= <-]. split; [exact Hclean|].
    exists srv2, before, x, x', after. auto 10.
Qed.

Lemma C7_write_failures_stay_local_witness :
  snd (main (with_arrivals
              ([] ++ rewire (fun _ _ => false)
                      {| arrives_at := 0;
                         get_request := Some (gone_by 2 get_root) |}
               :: at_once 0 [alive get_other])
              (boot (at_once 0 [gone_by 2 get_root; alive get_other])))) =
  snd (main (boot (at_once 0 [gone_by 2 get_root; alive get_other]))) /\
  snd (main (boot (at_once 0 [gone_by 2 get_root; alive get_other]))) = Serving.
Proof.
  destruct (C7_write_failures_stay_local
              (boot (at_once 0 [gone_by 2 get_root; alive get_other]))
              [] (at_once 0 [alive get_other])
              {| arrives_at := 0; get_request := Some (gone_by 2 get_root) |}
              (fun _ _ => false) eq_refl) as (Hsame & Hserving & _).
  split; [exact Hsame|]. apply Hserving; reflexivity.
Defined.

(** * More of the program

    Properties the program has beside those the specification claims. *)

(** ** One request on each connection *)

(** X1. A handler serves the first request of its connection and no other:
    what the peer sends after it is never read, whichever way the first
    request ends, because [close_connection] is set when the first request
    is done.  The whole run on a connection is the run on that connection
    cut down to its first request. *)
Theorem X1_one_request_per_connection
    (rt : runtime) (intr : interrupt) (conn : connection) (t : Z) :
  finish_request rt intr SlowHandler conn t =
  finish_request rt intr SlowHandler (first_only conn) t.
Proof.
  unfold finish_request, handle, try_finally, first_only.
  cbn [rfile]. destruct (rfile conn) as [|req rest]; [reflexivity|].
  cbn [firstn handle_requests]. unfold handle_one_request.
  rewrite SlowHandler_lookup.
  destruct (String.eqb (command req) "GET").
  - run.
    destruct (cut intr t (t + 5)) as [[sg t']|]; [reflexivity|].
    run.
    destruct (request_version req =? "HTTP/0.9")%string; run.
    + destruct (sendall_raises conn (t + 5) 0%nat); run; reflexivity.
    + destruct (sendall_raises conn (t + 5) 0%nat); run; [reflexivity|].
      destruct (sendall_raises conn (t + 5) 1%nat); run; reflexivity.
  - generalize ("Unsupported method (" ++ repr rt (command req) ++ ")").
    intros msg.
    remember (error_page rt 501 msg "Server does not support this operation")
      as pg eqn:Hpg.
    unfold send_error. cbn [responses Z.eqb Pos.eqb].
    rewrite <- Hpg. clear Hpg.
    run.
    destruct (request_version req =? "HTTP/0.9")%string; run.
    + destruct (command req =? "HEAD")%string; run; [reflexivity|].
      destruct (pg =? "")%string; run; [reflexivity|].
      destruct (sendall_raises conn t 0%nat); run; reflexivity.
    + destruct (sendall_raises conn t 0%nat); run; [reflexivity|].
      destruct (command req =? "HEAD")%string; run; [reflexivity|].
      destruct (pg =? "")%string; run; [reflexivity|].
      destruct (sendall_raises conn t 1%nat); run; reflexivity.
Qed.

(** ** Responses that do not get through *)

(** X2. What a peer is left with when a write of [do_GET] fails, for a
    request that is not HTTP/0.9 and without a signal.  If the write of
    the header block fails, nothing was sent and the body is not even
    tried.  If the header block goes out and the write of the body fails,
    the peer was sent the whole header block and no body.  Either way the
    delay was spent in full and [OSError] leaves the handler. *)
Theorem X2_failed_write_leaves_partial_response
    (rt : runtime) (conn : connection) (req : request) (rest : list request)
    (t : Z) :
  rfile conn = req :: rest ->
  command req = "GET" ->
  request_version req <> "HTTP/0.9" ->
  (sendall_raises conn (t + 5) 0 = true ->
   outcome (finish_request rt None SlowHandler conn t) =
     (Raise OSError, t + 5,
      [(t, Slept 5); (t + 5, SendFailed (head_200 rt (t + 5)))]) /\
   wire (events (snd (finish_request rt None SlowHandler conn t))) = "") /\
  (sendall_raises conn (t + 5) 0 = false ->
   sendall_raises conn (t + 5) 1 = true ->
   outcome (finish_request rt None SlowHandler conn t) =
     (Raise OSError, t + 5,
      [(t, Slept 5); (t + 5, Sent (head_200 rt (t + 5)));
       (t + 5, SendFailed fixed_body)]) /\
   wire (events (snd (finish_request rt None SlowHandler conn t))) =
     head_200 rt (t + 5)).
Proof.
  intros Hr Hc Hv. apply String.eqb_neq in Hv.
  pose proof (finish_request_GET rt None conn req rest t Hr Hc) as H.
  unfold GET_run, is09 in H. cbn [cut] in H. rewrite Hv in H.
  split.
  - intros H0. rewrite H0 in H. split; [exact H|].
    apply outcome_eq in H as (_ & _ & ->). reflexivity.
  - intros H0 H1. rewrite H0, H1 in H. split; [exact H|].
    apply outcome_eq in H as (_ & _ & ->).
    unfold wire. cbn. now rewrite append_nil_r.
Qed.

Lemma X2_failed_write_leaves_partial_response_witness :
  wire (events (snd (finish_request sample_runtime None SlowHandler
                       (gone_by 2 get_root) 0))) = "" /\
  wire (events (snd (finish_request sample_runtime None SlowHandler
                       (breaks_after 1 get_root) 0))) =
    head_200 sample_runtime (0 + 5).
Proof.
  assert (Hv : request_version get_root <> "HTTP/0.9") by discriminate.
  split.
  - apply (X2_failed_write_leaves_partial_response sample_runtime
             (gone_by 2 get_root) get_root [] 0 eq_refl eq_refl Hv).
    reflexivity.
  - apply (X2_failed_write_leaves_partial_response sample_runtime
             (breaks_after 1 get_root) get_root [] 0 eq_refl eq_refl Hv);
      reflexivity.
Defined.

(** X3. The reply to a method the class does not have, on a connection
    whose writes succeed and for a request that is not HTTP/0.9: the 501
    header block, with [Connection: close] and the length of the error
    page, followed by the error page.  A HEAD request gets the header
    block alone, though the block announces the length of the page.  The
    handler returns normally. *)
Theorem X3_reply_to_unsupported_method
    (rt : runtime) (intr : interrupt) (conn : connection) (req : request)
    (rest : list request) (t : Z) :
  rfile conn = req :: rest ->
  command req <> "GET" ->
  request_version req <> "HTTP/0.9" ->
  (forall u k, sendall_raises conn u k = false) ->
  fst (finish_request rt intr SlowHandler conn t) = Ok tt /\
  wire (events (snd (finish_request rt intr SlowHandler conn t))) =
    head_501 rt t (command req) ++
    (if String.eqb (command req) "HEAD" then "" else page_501 rt (command req)).
Proof.
  intros Hr Hc Hv Hf. apply String.eqb_neq in Hv.
  pose proof (finish_request_unsupported rt intr conn req rest t Hr Hc) as H.
  unfold unsupported_run, is09 in H. rewrite Hv, !Hf in H.
  destruct (String.eqb (command req) "HEAD").
  - cbn in H. apply outcome_eq in H as (-> & _ & ->). split; [reflexivity|].
    unfold wire. cbn. reflexivity.
  - cbn [negb andb] in H.
    destruct (String.eqb_spec (page_501 rt (command req)) "") as [He|He].
    + cbn in H. apply outcome_eq in H as (-> & _ & ->). split; [reflexivity|].
      unfold wire. cbn. now rewrite He.
    + cbn in H. apply outcome_eq in H as (-> & _ & ->). split; [reflexivity|].
      unfold wire. cbn. now rewrite append_nil_r.
Qed.

Lemma X3_reply_to_unsupported_method_witness :
  wire (events (snd (finish_request sample_runtime None SlowHandler
                       (alive head_root) 0))) =
    head_501 sample_runtime 0 "HEAD" /\
  wire (events (snd (finish_request sample_runtime None SlowHandler
                       (alive post_root) 0))) =
    head_501 sample_runtime 0 "POST" ++ page_501 sample_runtime "POST".
Proof.
  assert (Hh : command head_root <> "GET") by discriminate.
  assert (Hp : command post_root <> "GET") by discriminate.
  assert (Hvh : request_version head_root <> "HTTP/0.9") by discriminate.
  assert (Hvp : request_version post_root <> "HTTP/0.9") by discriminate.
  split.
  - rewrite <- (append_nil_r (head_501 sample_runtime 0 "HEAD")).
    apply (X3_reply_to_unsupported_method sample_runtime None
             (alive head_root) head_root [] 0 eq_refl Hh Hvh).
    reflexivity.
  - apply (X3_reply_to_unsupported_method sample_runtime None
             (alive post_root) post_root [] 0 eq_refl Hp Hvp).
    reflexivity.
Defined.

(** ** Signals *)

(** X4. A signal that comes while a handler sleeps in [do_GET] ends the
    run there: the connection is sent nothing, the handler is left at the
    clock of the signal, the loop ends with the exception of the signal
    and the connections still waiting are never taken.  The connection is
    shut down on [SIGINT], which Python raises as an exception, and not on
    [SIGTERM]. *)
Theorem X4_signal_during_the_delay
    (rt : runtime) (sg : signal) (u : Z) (a : arrival) (conn : connection)
    (post : list arrival) (srv : server) :
  shutdown_request srv = false ->
  arrives_at a <= now srv ->
  now srv <= u < now srv + 5 ->
  get_request a = Some conn ->
  asks_GET conn = true ->
  exists x,
    serve_forever rt (Some (sg, u)) SlowHandler (a :: post) srv =
      ({| server_address := server_address srv;
          shutdown_request := false;
          now := u;
          history := (history srv ++ [x])%list |},
       Escaped (exn_of_signal sg)) /\
    began x = now srv /\
    ended x = u /\
    activity x = [(now srv, SleepCut sg)] /\
    wire (activity x) = "" /\
    raised x = Some (exn_of_signal sg) /\
    shut_down x = match sg with SIGINT => true | SIGTERM => false end.
Proof.
  intros Hs Ha [Hlo Hhi] Hg Hq.
  destruct (asks_GET_inv conn Hq) as (req & rest & Hr & Hc).
  cbn [serve_forever]. rewrite Hs.
  assert (Hready : Z.max (now srv) (arrives_at a) = now srv) by lia.
  rewrite Hready.
  assert (Hwait : cut (Some (sg, u)) (now srv) (now srv) = None).
  { unfold cut. destruct (Z.ltb_spec u (now srv)); [lia | reflexivity]. }
  assert (Hcut : cut (Some (sg, u)) (now srv) (now srv + 5) = Some (sg, u)).
  { unfold cut. destruct (Z.ltb_spec u (now srv + 5)); [|lia].
    now rewrite Z.max_r by lia. }
  rewrite Hwait.
  rewrite (noblock_entry rt (Some (sg, u)) a conn _ Hg). cbn [now at_clock].
  pose proof (finish_request_GET rt (Some (sg, u)) conn req rest (now srv) Hr Hc)
    as H.
  unfold GET_run in H. rewrite Hcut in H.
  apply outcome_eq in H as (Hres & Hclock & Hev).
  assert (Hleft : left_with (Some (sg, u)) conn (now srv) =
                  Some (exn_of_signal sg)).
  { unfold left_with. now rewrite Hq, Hcut. }
  rewrite Hleft.
  exists (entry_for rt (Some (sg, u)) a conn (now srv)).
  unfold entry_for, log. cbn [issued began activity raised ended shut_down].
  rewrite Hres, Hclock, Hev.
  destruct srv as [addr flag t h]. cbn in *. subst flag.
  destruct sg; repeat split; reflexivity.
Qed.

Lemma X4_signal_during_the_delay_witness :
  exists x,
    serve_forever sample_runtime (Some (SIGINT, 7)) SlowHandler
      (at_once 0 [alive get_root; alive get_other])
      {| server_address := address; shutdown_request := false;
         now := 5; history := [] |} =
      ({| server_address := address; shutdown_request := false;
          now := 7; history := ([] ++ [x])%list |},
       Escaped KeyboardInterrupt) /\
    began x = 5 /\
    ended x = 7 /\
    activity x = [(5, SleepCut SIGINT)] /\
    wire (activity x) = "" /\
    raised x = Some KeyboardInterrupt /\
    shut_down x = true.
Proof.
  apply (X4_signal_during_the_delay sample_runtime SIGINT 7
           {| arrives_at := 0; get_request := Some (alive get_root) |}
           (alive get_root) (at_once 0 [alive get_other])
           {| server_address := address; shutdown_request := false;
              now := 5; history := [] |}).
  - reflexivity.
  - cbn. lia.
  - cbn. lia.
  - reflexivity.
  - reflexivity.
Defined.

(** ** The history of a run *)

Section History.

Variable rt : runtime.
Variable intr : interrupt.

Lemma finish_time_app (t0 : Z) (h : list served) (x : served) :
  finish_time t0 (h ++ [x]) = ended x.
Proof. unfold finish_time. now rewrite fold_left_app. Qed.

Lemma in_sequence_app (h : list served) (x : served) (t0 : Z) :
  in_sequence t0 h ->
  finish_time t0 h <= began x ->
  issued x <= began x ->
  began x <= ended x ->
  in_sequence t0 (h ++ [x]).
Proof.
  revert t0. induction h as [|y h IH]; intros t0 Hh Hf Hi Hb; cbn in *.
  - auto.
  - destruct Hh as (H1 & H2 & H3 & H4). repeat split; auto.
Qed.

Lemma left_at_later (conn : connection) (t : Z) : t <= left_at intr conn t.
Proof.
  unfold left_at, cut. destruct (asks_GET conn); [|lia].
  destruct intr as [[sg u]|]; [|lia].
  destruct (u <? t + 5); lia.
Qed.

(** The loop keeps the history in sequence and its clock at or after the
    end of the last handler. *)
Lemma serve_forever_in_sequence (t0 : Z) (pending : list arrival)
    (srv : server) :
  in_sequence t0 (history srv) ->
  finish_time t0 (history srv) <= now srv ->
  in_sequence t0
    (history (fst (serve_forever rt intr SlowHandler pending srv))) /\
  finish_time t0
    (history (fst (serve_forever rt intr SlowHandler pending srv))) <=
  now (fst (serve_forever rt intr SlowHandler pending srv)).
Proof.
  revert srv. induction pending as [|a rest IH]; intros srv Hh Hf;
    cbn [serve_forever].
  - destruct (shutdown_request srv); [now cbn|].
    destruct intr as [[sg u]|]; cbn [fst history now at_clock];
      [split; [exact Hh | lia] | auto].
  - destruct (shutdown_request srv); [now cbn|].
    set (T := Z.max (now srv) (arrives_at a)).
    assert (HT1 : now srv <= T) by (unfold T; lia).
    assert (HT2 : arrives_at a <= T) by (unfold T; lia).
    destruct (cut intr (now srv) T) as [[sg u]|] eqn:Hcut.
    { cbn [fst history now at_clock]. split; [exact Hh|]. unfold cut in Hcut.
      destruct intr as [[sg' u']|]; [|discriminate].
      destruct (u' <? T); [|discriminate]. injection Hcut as _ <-. lia. }
    destruct (get_request a) as [conn|] eqn:Hg.
    + rewrite (noblock_entry rt intr a conn _ Hg). cbn [now at_clock].
      destruct (entry_for_times rt intr a conn T) as (Hi & Hb & He).
      pose proof (left_at_later conn T) as Hlater.
      set (x := entry_for rt intr a conn T) in *.
      assert (Hseq : in_sequence t0 (history (log x (at_clock T srv)))).
      { cbn [history log at_clock].
        apply in_sequence_app; auto; rewrite ?Hi, ?Hb, ?He; lia. }
      assert (Hfin : finish_time t0 (history (log x (at_clock T srv))) <=
                     now (log x (at_clock T srv))).
      { cbn [history log at_clock now]. rewrite finish_time_app. lia. }
      destruct (left_with intr conn T); [now cbn [fst] | now apply IH].
    + rewrite (noblock_refused rt intr a _ Hg).
      apply IH; cbn [history now at_clock]; auto. lia.
Qed.

End History.

(** X5. Handlers never overlap. In every run, whatever arrives and
    whenever a signal comes, the history is in sequence from the start of
    the process on: each handler is created no earlier than its connection
    came and than the handler before it was left. *)
Theorem X5_handlers_never_overlap (e : os) :
  match fst (main e) with
  | Some srv =>
      in_sequence (started e) (history srv) /\
      finish_time (started e) (history srv) <= now srv
  | None => bind_raises e = true
  end.
Proof.
  unfold main, TCPServer.
  destruct (bind_raises e); [reflexivity|].
  match goal with
  | |- context [serve_forever ?rt ?i ?c ?p ?s] =>
      pose proof (serve_forever_in_sequence rt i (started e) p s) as H;
      destruct (serve_forever rt i c p s) as [srv' l]
  end.
  cbn in *. apply H; [exact I | lia].
Qed.

Section Undisturbed.

Variable rt : runtime.



End Undisturbed.





Section Signalled.

Variable rt : runtime.
Variable sg : signal.
Variable u : Z.

(** In a history in sequence no handler is left after the last one. *)
Lemma in_sequence_ended (h : list served) (t0 : Z) :
  in_sequence t0 h ->
  t0 <= finish_time t0 h /\
  Forall (fun x => ended x <= finish_time t0 h) h.
Proof.
  revert t0. induction h as [|x rest IH]; intros t0 Hh.
  - cbn. split; [lia | constructor].
  - destruct Hh as (H1 & H2 & H3 & H4).
    destruct (IH (ended x) H4) as (Hle & Hall).
    change (finish_time t0 (x :: rest)) with (finish_time (ended x) rest).
    split; [lia|]. constructor; [exact Hle | exact Hall].
Qed.

(** A loop to which a signal is sent ends with that signal, at the clock
    of the signal, or where it stands if the signal came before. *)
Lemma serve_forever_signal (t0 : Z) (pending : list arrival) (srv : server) :
  shutdown_request srv = false ->
  t0 <= now srv <= Z.max t0 u ->
  now (fst (serve_forever rt (Some (sg, u)) SlowHandler pending srv)) =
    Z.max t0 u /\
  snd (serve_forever rt (Some (sg, u)) SlowHandler pending srv) =
    Escaped (exn_of_signal sg).
Proof.
  revert srv. induction pending as [|a rest IH]; intros srv Hs Hnow;
    cbn [serve_forever]; rewrite Hs.
  - cbn [fst snd now at_clock]. split; [lia | reflexivity].
  - set (T := Z.max (now srv) (arrives_at a)).
    assert (HT : now srv <= T) by (unfold T; lia).
    unfold cut. destruct (Z.ltb_spec u T) as [Hlt|Hge].
    { cbn [fst snd now at_clock]. split; [lia | reflexivity]. }
    destruct (get_request a) as [conn|] eqn:Hg.
    + rewrite (noblock_entry rt (Some (sg, u)) a conn _ Hg).
      cbn [now at_clock].
      destruct (entry_for_times rt (Some (sg, u)) a conn T) as (_ & _ & He).
      set (x := entry_for rt (Some (sg, u)) a conn T) in *.
      unfold left_with. unfold left_at in He.
      destruct (asks_GET conn).
      * unfold cut in *. destruct (Z.ltb_spec u (T + 5)) as [Hin|Hout].
        -- cbn [fst snd now log]. rewrite He. split; [lia | reflexivity].
        -- apply IH; [exact Hs|]. cbn [now log]. rewrite He. lia.
      * apply IH; [exact Hs|]. cbn [now log]. rewrite He. lia.
    + rewrite (noblock_refused rt (Some (sg, u)) a _ Hg).
      apply IH; [exact Hs|]. cbn [now at_clock]. lia.
Qed.

End Signalled.

(** X8. A signal is neither missed nor put off. When [bind] succeeded and
    a signal is sent to the process, the process ends by that signal at
    the very clock at which it comes (at its start, if the signal came
    before), during a sleep as well as between connections, and no
    handler is left later than that. *)
Theorem X8_a_signal_ends_the_process_at_once
    (e : os) (sg : signal) (u : Z) :
  bind_raises e = false ->
  signalled e = Some (sg, u) ->
  exists srv,
    main e = (Some srv, KilledBy sg) /\
    now srv = Z.max (started e) u /\
    Forall (fun x => ended x <= Z.max (started e) u) (history srv).
Proof.
  intros Hb Hs. unfold main, TCPServer. rewrite Hb, Hs.
  match goal with
  | |- context [serve_forever ?rt _ SlowHandler ?p ?s] =>
      pose proof (serve_forever_signal rt sg u (started e) p s eq_refl)
        as Hend;
      pose proof (serve_forever_in_sequence rt (Some (sg, u)) (started e) p s)
        as Hseq;
      destruct (serve_forever rt (Some (sg, u)) SlowHandler p s) as [srv' l]
  end.
  cbn [fst snd now history] in *.
  destruct Hend as (Hnow & ->); [lia|].
  destruct Hseq as (Hin & Hfin); [exact I | cbn; lia |].
  exists srv'. split; [now destruct sg|]. split; [exact Hnow|].
  destruct (in_sequence_ended _ _ Hin) as (_ & Hall).
  eapply Forall_impl; [|exact Hall]. cbn beta. intros x Hx. lia.
Qed.

Lemma X8_a_signal_ends_the_process_at_once_witness :
  exists srv,
    main (interrupted 7 (at_once 0 [alive get_root; alive get_root;
                                    alive get_root])) =
      (Some srv, KilledBy SIGINT) /\
    now srv = Z.max 0 7 /\
    Forall (fun x => ended x <= Z.max 0 7) (history srv).
Proof.
  apply (X8_a_signal_ends_the_process_at_once
           (interrupted 7 (at_once 0 [alive get_root; alive get_root;
                                      alive get_root])) SIGINT 7);
    reflexivity.
Defined.

(** Connections that find the server free are taken as they come. *)
Lemma serve_forever_spaced (rt : runtime) (pending : list arrival)
    (srv : server) :
  shutdown_request srv = false ->
  spaced (now srv) pending ->
  Forall (fun a => sleeps a = true) pending ->
  exists srv' new,
    serve_forever rt None SlowHandler pending srv = (srv', Blocked) /\
    history srv' = (history srv ++ new)%list /\
    List.length new = List.length pending /\
    Forall (fun x => began x = issued x /\ latency x = 5) new.
Proof.
  revert srv. induction pending as [|a rest IH]; intros srv Hs Hsp Hall;
    cbn [serve_forever]; rewrite Hs.
  - exists srv, []. rewrite app_nil_r. auto.
  - destruct Hsp as (Hle & Hsp).
    inversion Hall as [|a' rest' Ha Hrest]; subst a' rest'.
    unfold sleeps in Ha.
    destruct (get_request a) as [conn|] eqn:Hg; [|discriminate].
    cbn [cut]. rewrite Z.max_r by lia.
    rewrite (noblock_entry rt None a conn _ Hg), left_with_None.
    cbn [now at_clock].
    destruct (entry_for_times rt None a conn (arrives_at a)) as (Hi & Hb & _).
    destruct (entry_for_GET rt a conn (arrives_at a) Ha) as (He & _).
    set (x := entry_for rt None a conn (arrives_at a)) in *.
    destruct (IH (log x (at_clock (arrives_at a) srv)) Hs)
      as (srv' & new & Hrun & Hh & Hlen & Hnew); [|exact Hrest|].
    { cbn [now log]. now rewrite He. }
    exists srv', (x :: new). rewrite Hrun, Hh. cbn [history log at_clock].
    rewrite <- app_assoc. split; [reflexivity|]. split; [reflexivity|].
    split; [cbn; now rewrite Hlen|].
    constructor; [|exact Hnew].
    unfold latency. rewrite Hi, Hb, He. split; [reflexivity | lia].
Qed.

(** X9. Without contention the delay is exactly five seconds. When the
    connections come one at a time, each at least five seconds after the
    one before and each asking a GET, and no signal comes, every
    connection gets its handler the moment it comes and is done exactly
    five seconds later, whether its writes succeed or not. *)
Theorem X9_spaced_connections_take_exactly_the_delay (e : os) :
  bind_raises e = false ->
  signalled e = None ->
  spaced (started e) (arrivals e) ->
  Forall (fun a => sleeps a = true) (arrivals e) ->
  exists srv,
    main e = (Some srv, Serving) /\
    List.length (history srv) = List.length (arrivals e) /\
    Forall (fun x => began x = issued x /\ latency x = 5) (history srv).
Proof.
  intros Hb Hs Hsp Hall. unfold main, TCPServer. rewrite Hb, Hs.
  match goal with
  | |- context [serve_forever ?rt None SlowHandler ?p ?s] =>
      destruct (serve_forever_spaced rt p s eq_refl Hsp Hall)
        as (srv' & new & Hrun & Hh & Hlen & Hnew)
  end.
  rewrite Hrun. exists srv'. cbn [history app] in Hh. rewrite Hh. auto.
Qed.

Lemma X9_spaced_connections_take_exactly_the_delay_witness :
  exists srv,
    main (boot [{| arrives_at := 1; get_request := Some (alive get_root) |};
                {| arrives_at := 6; get_request := Some (gone_by 8 get_other) |};
                {| arrives_at := 20; get_request := Some pipelined |}]) =
      (Some srv, Serving) /\
    List.length (history srv) = 3%nat /\
    Forall (fun x => began x = issued x /\ latency x = 5) (history srv).
Proof.
  apply (X9_spaced_connections_take_exactly_the_delay
           (boot [{| arrives_at := 1; get_request := Some (alive get_root) |};
                  {| arrives_at := 6;
                     get_request := Some (gone_by 8 get_other) |};
                  {| arrives_at := 20; get_request := Some pipelined |}])).
  - reflexivity.
  - reflexivity.
  - cbn. lia.
  - repeat constructor.
Defined.
